(** * The XIME (0xF5) XAM app of xenia: synchronous message dispatch

    Shallow embedding of [XimeApp::DispatchMessageSync]
    (src/xenia/kernel/xam/apps/xime_app.cc) together with the parts of the
    emulator it touches: the console's result codes, the guest memory
    translator and the logging sink.

    A call is modelled as a computation over a [World] made of the shared
    guest memory and the sequence of observable events the host performed
    (address translations, host loads and stores, log lines).  C++ statements are
    computations that complete either normally or by [return]. *)

From Stdlib Require Import ZArith List String Ascii Bool Lia.
Import ListNotations.

Local Open Scope string_scope.
Local Open Scope Z_scope.

(* ===================================================================== *)
(** ** Result codes (xenia/xbox.h)                                        *)
(* ===================================================================== *)

Module Xbox.

(** [typedef uint32_t X_RESULT;] and [X_STATUS], [X_HRESULT] alike. *)
Definition X_RESULT : Type := Z.

(** A value is a [uint32_t] when it lies in [0, 2^32). *)
Definition is_uint32 (v : Z) : Prop := 0 <= v < 2 ^ 32.

(** Modelled from the spec: the generic-success sentinel [X_E_SUCCESS] of
    xenia/xbox.h, which is not part of the sources at hand.  The spec
    names it [GenericSuccess]; on the console it is the all-zero code. *)
Definition X_E_SUCCESS : X_RESULT := 0x00000000.

(** Modelled from the spec: the generic-failure sentinel
    [X_STATUS_UNSUCCESSFUL] of xenia/xbox.h ([GenericUnsuccessful]), the
    console's STATUS_UNSUCCESSFUL with both severity bits set. *)
Definition X_STATUS_UNSUCCESSFUL : X_RESULT := 0xC0000001.

(** Modelled from the spec: the severity field of a result code, its two
    most significant bits (bits 31 and 30). *)
Definition severity (code : X_RESULT) : Z := Z.shiftr code 30.

(** Modelled from the spec: the bit-layout macros
    [#define XSUCCEEDED(s) ((s & 0xC0000000) == 0)] and
    [#define XFAILED(s) (!XSUCCEEDED(s))] of xenia/xbox.h; [XFAILED] is
    the spec's [isFailure]. *)
Definition XSUCCEEDED (s : X_RESULT) : bool := Z.land s 0xC0000000 =? 0.
Definition XFAILED (s : X_RESULT) : bool := negb (XSUCCEEDED s).

End Xbox.

(* ===================================================================== *)
(** ** Guest memory (xenia/memory.h)                                      *)
(* ===================================================================== *)

Module Memory.

(** A mapped range of the guest address space with the bytes it holds
    and the host address its first byte lives at. *)
Record Heap : Type := mkHeap {
  heap_base : Z;          (* first guest virtual address of the range *)
  host_base : Z;          (* host address backing [heap_base]        *)
  heap_data : list Z      (* contents, one byte per cell             *)
}.

Definition heap_size (h : Heap) : Z := Z.of_nat (List.length (heap_data h)).

(** The guest memory state: the map of ranges and their contents. *)
Definition t : Type := list Heap.

(** A host pointer; [None] is the null pointer. *)
Definition host_ptr : Type := option Z.

Definition heap_contains (h : Heap) (guest_address : Z) : bool :=
  (heap_base h <=? guest_address) && (guest_address <? heap_base h + heap_size h).

Definition LookupHeap (m : t) (guest_address : Z) : option Heap :=
  find (fun h => heap_contains h guest_address) m.

(** What the translator found; the two misses both surface as null but
    stay apart internally. *)
Inductive resolution : Type :=
| Mapped (p : Z)
| NoBuffer
| Unmapped.

(** Modelled from the spec: the body of [Memory::TranslateVirtual] is not
    part of the sources at hand.  Address 0 is answered before the map is
    looked at; any other address is resolved against the mapped ranges. *)
Definition resolve (m : t) (guest_address : Z) : resolution :=
  if guest_address =? 0 then NoBuffer
  else match LookupHeap m guest_address with
       | Some h => Mapped (host_base h + (guest_address - heap_base h))
       | None => Unmapped
       end.

(** Modelled from the spec: [translate(addr) -> hostPointer | null]. *)
Definition TranslateVirtual (m : t) (guest_address : Z) : host_ptr :=
  match resolve m guest_address with
  | Mapped p => Some p
  | NoBuffer | Unmapped => None
  end.

(** Reading one byte through a host address: defined only inside a
    mapped range. *)
Definition host_contains (h : Heap) (p : Z) : bool :=
  (host_base h <=? p) && (p <? host_base h + heap_size h).

Definition host_read (m : t) (p : Z) : option Z :=
  match find (fun h => host_contains h p) m with
  | Some h => nth_error (heap_data h) (Z.to_nat (p - host_base h))
  | None => None
  end.

Fixpoint replace_nth (n : nat) (v : Z) (l : list Z) : list Z :=
  match l, n with
  | [], _ => []
  | _ :: l', O => v :: l'
  | x :: l', S k => x :: replace_nth k v l'
  end.

(** Writing one byte through a host address: the first range backed by
    that address takes the byte; no range, no write. *)
Fixpoint host_write (m : t) (p v : Z) : option t :=
  match m with
  | [] => None
  | h :: m' =>
      if host_contains h p then
        Some ({| heap_base := heap_base h;
                 host_base := host_base h;
                 heap_data := replace_nth (Z.to_nat (p - host_base h)) v (heap_data h) |}
              :: m')
      else option_map (cons h) (host_write m' p v)
  end.

End Memory.

(* ===================================================================== *)
(** ** Logging (xenia/base/logging.h)                                     *)
(* ===================================================================== *)

Module Logging.

Inductive LogLevel : Type := Error | Warning | Info | Debug.

(** One call of a logging macro: its severity, the format string and the
    integer arguments, in the order they are passed. *)
Record LogEntry : Type := mkLogEntry {
  level : LogLevel;
  format : string;
  args : list Z
}.

Definition hex_digit (d : Z) : ascii :=
  if d <? 10 then ascii_of_nat (Z.to_nat (48 + d))
  else ascii_of_nat (Z.to_nat (55 + d)).

(** [n] hexadecimal digits of [v], most significant first. *)
Fixpoint hex_digits (n : nat) (v : Z) : string :=
  match n with
  | O => EmptyString
  | S k => String (hex_digit ((v / 16 ^ Z.of_nat k) mod 16)) (hex_digits k v)
  end.

(** What the replacement field [{:08X}] prints for a [uint32_t]. *)
Definition hex8 (v : Z) : string := hex_digits 8 v.

(** The formatter behind the logging macros.  The call sites of the
    sources ([XELOGD("XimeInit({:08X}, {:08X}), unimplemented", ...)],
    [XELOGE("Failed to launch target: {:08X}", result)]) write their
    format strings in the replacement-field syntax: [{:08X}] takes the
    next argument and prints it as eight upper-case hexadecimal digits,
    every character outside braces is copied as it is, and arguments left
    over are dropped.  Only the field the sources use is supported; any
    other use of a brace, or a field without an argument, is a format
    error ([None]). *)
Fixpoint vformat (f : string) (a : list Z) : option string :=
  match f with
  | EmptyString => Some EmptyString
  | String "{" (String ":" (String "0" (String "8" (String "X" (String "}" rest))))) =>
      match a with
      | v :: a' => option_map (String.append (hex8 v)) (vformat rest a')
      | [] => None
      end
  | String "{" _ => None
  | String "}" _ => None
  | String c rest => option_map (String c) (vformat rest a)
  end.

(** The text of a log line. *)
Definition render (e : LogEntry) : option string := vformat (format e) (args e).

End Logging.

(* ===================================================================== *)
(** ** Host computations                                                  *)
(* ===================================================================== *)

Import Xbox Logging.

(** What the host is seen doing, in order. *)
Inductive Event : Type :=
| EvTranslate (guest_address : Z)      (* a call of [TranslateVirtual]   *)
| EvLoad (p : Memory.host_ptr)         (* a read through a host pointer  *)
| EvStore (p : Memory.host_ptr) (v : Z) (* a write through a host pointer *)
| EvLog (e : LogEntry).                (* a line handed to the log sink  *)

(** The state shared by all calls: the guest memory the app reaches through
    [memory_], and the trace of events so far. *)
Record World : Type := mkWorld {
  memory : Memory.t;
  events : list Event
}.

(** A computation either finishes with a value or faults the host. *)
Inductive outcome (A : Type) : Type :=
| Done (a : A)
| HostFault.
Arguments Done {A} a.
Arguments HostFault {A}.

Definition M (A : Type) : Type := World -> outcome A * World.

Definition ret {A} (a : A) : M A := fun w => (Done a, w).

Definition bind {A B} (c : M A) (k : A -> M B) : M B :=
  fun w => match c w with
           | (Done a, w') => k a w'
           | (HostFault, w') => (HostFault, w')
           end.

Declare Scope host_scope.
Delimit Scope host_scope with host.
Notation "x <- c ;; k" := (bind c (fun x => k))
  (at level 61, c at next level, right associativity) : host_scope.
Local Open Scope host_scope.

Definition emit (e : Event) : M unit :=
  fun w => (Done tt, {| memory := memory w; events := events w ++ [e] |}).

(** Modelled from the spec: the call [memory_->TranslateVirtual(guest_address)].
    The translator's body is not part of the sources at hand; as the spec
    has it, a translation reads the memory map and changes nothing. *)
Definition TranslateVirtual (guest_address : Z) : M Memory.host_ptr :=
  _ <- emit (EvTranslate guest_address) ;;
  fun w => (Done (Memory.TranslateVirtual (memory w) guest_address), w).

(** [*p] for a host pointer [p]: dereferencing null, or an address that
    backs no guest range, faults the host. *)
Definition load_u8 (p : Memory.host_ptr) : M Z :=
  _ <- emit (EvLoad p) ;;
  fun w => match p with
           | Some a => match Memory.host_read (memory w) a with
                       | Some v => (Done v, w)
                       | None => (HostFault, w)
                       end
           | None => (HostFault, w)
           end.

(** [*p = v]: the only way a computation changes guest memory. *)
Definition store_u8 (p : Memory.host_ptr) (v : Z) : M unit :=
  _ <- emit (EvStore p v) ;;
  fun w => match p with
           | Some a => match Memory.host_write (memory w) a v with
                       | Some m' => (Done tt, {| memory := m'; events := events w |})
                       | None => (HostFault, w)
                       end
           | None => (HostFault, w)
           end.

(** Modelled from the spec: the logging macros of xenia/base/logging.h,
    which are not part of the sources at hand.  [XELOGE] logs at error
    severity, [XELOGD] at the lower debug severity; either hands one line
    to the sink and does nothing else. *)
Definition XELOGD (fmt : string) (a : list Z) : M unit :=
  emit (EvLog {| level := Debug; format := fmt; args := a |}).

Definition XELOGE (fmt : string) (a : list Z) : M unit :=
  emit (EvLog {| level := Error; format := fmt; args := a |}).

(** *** Statements *)

(** How a statement completes: control goes on to the next statement, or
    the enclosing function returns a value. *)
Inductive completion : Type :=
| Normal
| Return (r : X_RESULT).

Definition stmt : Type := M completion.

Definition skip : stmt := ret Normal.

Definition return_ (r : X_RESULT) : stmt := ret (Return r).

(** An expression statement. *)
Definition exec (c : M unit) : stmt := _ <- c ;; ret Normal.

(** [s1; s2]: [s2] runs only when [s1] did not return. *)
Definition seq (s1 s2 : stmt) : stmt :=
  c <- s1 ;;
  match c with
  | Normal => s2
  | Return r => return_ r
  end.

Notation "s1 ;;; s2" := (seq s1 s2)
  (at level 62, right associativity) : host_scope.

(** Calling a function whose body is [body]: [None] when control reaches
    the end of the body without a [return]. *)
Definition call (body : stmt) : M (option X_RESULT) :=
  c <- body ;;
  ret (match c with
       | Return r => Some r
       | Normal => None
       end).

(* ===================================================================== *)
(** ** The XIME app (xenia/kernel/xam/apps/xime_app.cc)                   *)
(* ===================================================================== *)

(** [class App]: the members the dispatch reads.  [memory_] points into
    the shared [World]. *)
Record App : Type := mkApp {
  app_id : Z
}.

(** [XimeApp::XimeApp(KernelState* kernel_state) : App(kernel_state, 0xF5) {}] *)
Definition XimeApp : App := {| app_id := 0xF5 |}.

(** The [switch (message)] of lines 26-57.  Every [case] ends in [return],
    so no case falls through into the next; a message without a case
    leaves the switch normally.  The local [buffer] is in scope. *)
Definition switch_message (message buffer_ptr buffer_length : Z)
    (buffer : Memory.host_ptr) : stmt :=
  if message =? 0x00400001 then
    (* XIME_INIT *)
    exec (XELOGD "XimeInit({:08X}, {:08X}), unimplemented"
                 [buffer_ptr; buffer_length]) ;;;
    return_ X_E_SUCCESS
  else if message =? 0x00400002 then
    (* XIME_UNINIT *)
    exec (XELOGD "XimeUninit({:08X}, {:08X}), unimplemented"
                 [buffer_ptr; buffer_length]) ;;;
    return_ X_E_SUCCESS
  else if message =? 0x00400003 then
    (* XIME_SET_PROPERTY *)
    exec (XELOGD "XimeSetProperty({:08X}, {:08X}), unimplemented"
                 [buffer_ptr; buffer_length]) ;;;
    return_ X_E_SUCCESS
  else if message =? 0x00400004 then
    (* XIME_SET_CHARACTER *)
    exec (XELOGD "XimeSetCharacter({:08X}, {:08X}), unimplemented"
                 [buffer_ptr; buffer_length]) ;;;
    return_ X_E_SUCCESS
  else if message =? 0x00400005 then
    (* XIME_GET_STRING *)
    exec (XELOGD "XimeGetString({:08X}, {:08X}), unimplemented"
                 [buffer_ptr; buffer_length]) ;;;
    return_ X_E_SUCCESS
  else skip.

(** Lines 26-62: everything that runs once [buffer] is initialised. *)
Definition after_translate (this : App) (message buffer_ptr buffer_length : Z)
    (buffer : Memory.host_ptr) : stmt :=
  switch_message message buffer_ptr buffer_length buffer ;;;
  exec (XELOGE "Unimplemented Xime message app=%.8X, msg=%.8X, arg1=%.8X, arg2=%.8X"
               [app_id this; message; buffer_ptr; buffer_length]) ;;;
  return_ X_STATUS_UNSUCCESSFUL.

(** The body of [XimeApp::DispatchMessageSync]. *)
Definition DispatchMessageSync_body (this : App)
    (message buffer_ptr buffer_length : Z) : stmt :=
  buffer <- TranslateVirtual buffer_ptr ;;
  after_translate this message buffer_ptr buffer_length buffer.

(** [X_RESULT XimeApp::DispatchMessageSync(uint32_t message,
      uint32_t buffer_ptr, uint32_t buffer_length)] *)
Definition DispatchMessageSync (this : App)
    (message buffer_ptr buffer_length : Z) : M (option X_RESULT) :=
  call (DispatchMessageSync_body this message buffer_ptr buffer_length).

(* ===================================================================== *)
(** ** The documented interface of the 0xF5 family                        *)
(* ===================================================================== *)

(** The opcode table of the interface description: message value and the
    operation it selects. *)
Definition xime_table : list (Z * string) :=
  [ (0x00400001, "XimeInit");
    (0x00400002, "XimeUninit");
    (0x00400003, "XimeSetProperty");
    (0x00400004, "XimeSetCharacter");
    (0x00400005, "XimeGetString") ].

Definition xime_messages : list Z := map fst xime_table.

Fixpoint lookup_opcode (message : Z) (table : list (Z * string)) : option string :=
  match table with
  | [] => None
  | (k, name) :: table' =>
      if message =? k then Some name else lookup_opcode message table'
  end.

(** Table-driven view of the dispatch: the status a message is answered
    with, and the one line the call logs. *)
Definition status_of (message : Z) : X_RESULT :=
  match lookup_opcode message xime_table with
  | Some _ => X_E_SUCCESS
  | None => X_STATUS_UNSUCCESSFUL
  end.

Definition unmatched_entry (this : App) (message buffer_ptr buffer_length : Z) : LogEntry :=
  {| level := Error;
     format := "Unimplemented Xime message app=%.8X, msg=%.8X, arg1=%.8X, arg2=%.8X";
     args := [app_id this; message; buffer_ptr; buffer_length] |}.

Definition logged_entry (this : App) (message buffer_ptr buffer_length : Z) : LogEntry :=
  match lookup_opcode message xime_table with
  | Some name =>
      {| level := Debug;
         format := name ++ "({:08X}, {:08X}), unimplemented";
         args := [buffer_ptr; buffer_length] |}
  | None => unmatched_entry this message buffer_ptr buffer_length
  end.

(** An empty machine: no mapped guest memory, nothing observed yet. *)
Definition empty_world : World := {| memory := []; events := [] |}.

(* ===================================================================== *)
(** ** Callers of the dispatch                                            *)
(* ===================================================================== *)

(** A guest issuing one message after another to the same app: each call
    runs in the state the previous one left. *)
Fixpoint DispatchMessageSync_all (this : App) (calls : list (Z * Z * Z))
    : M (list (option X_RESULT)) :=
  match calls with
  | [] => ret []
  | (message, buffer_ptr, buffer_length) :: rest =>
      r <- DispatchMessageSync this message buffer_ptr buffer_length ;;
      rs <- DispatchMessageSync_all this rest ;;
      ret (r :: rs)
  end.

(** The two events one call adds to the trace. *)
Definition call_events (this : App) (c : Z * Z * Z) : list Event :=
  let '(message, buffer_ptr, buffer_length) := c in
  [EvTranslate buffer_ptr;
   EvLog (logged_entry this message buffer_ptr buffer_length)].

(** Reading back what [{:08X}] printed: the value of a string of
    upper-case hexadecimal digits. *)
Definition hex_digit_value (c : ascii) : Z :=
  let n := Z.of_nat (nat_of_ascii c) in
  if n <? 65 then n - 48 else n - 55.

Fixpoint hex_value_from (acc : Z) (s : string) : Z :=
  match s with
  | EmptyString => acc
  | String c s' => hex_value_from (16 * acc + hex_digit_value c) s'
  end.

Definition hex_value (s : string) : Z := hex_value_from 0 s.

(* ===================================================================== *)
(** ** The emulator window (xenia/app/emulator_window.cc)                 *)
(* ===================================================================== *)

Module EmulatorWindow.

(** *** Post-processing settings and their configuration values *)

(** [gpu::CommandProcessor::SwapPostEffect], with the enumerators the
    window names. *)
Inductive SwapPostEffect : Type := kNone | kFxaa | kFxaaExtreme.

(** [ui::Presenter::GuestOutputPaintConfig::Effect], likewise. *)
Inductive Effect : Type := kBilinear | kCas | kFsr.

Definition SwapPostEffect_eqb (a b : SwapPostEffect) : bool :=
  match a, b with
  | kNone, kNone | kFxaa, kFxaa | kFxaaExtreme, kFxaaExtreme => true
  | _, _ => false
  end.

Definition Effect_eqb (a b : Effect) : bool :=
  match a, b with
  | kBilinear, kBilinear | kCas, kCas | kFsr, kFsr => true
  | _, _ => false
  end.

(** [const char* EmulatorWindow::GetCvarValueForSwapPostEffect(effect)] *)
Definition GetCvarValueForSwapPostEffect (effect : SwapPostEffect) : string :=
  match effect with
  | kFxaa => "fxaa"
  | kFxaaExtreme => "fxaa_extreme"
  | _ => ""
  end.

(** [EmulatorWindow::GetSwapPostEffectForCvarValue(const std::string&)] *)
Definition GetSwapPostEffectForCvarValue (cvar_value : string) : SwapPostEffect :=
  if String.eqb cvar_value (GetCvarValueForSwapPostEffect kFxaa) then kFxaa
  else if String.eqb cvar_value (GetCvarValueForSwapPostEffect kFxaaExtreme)
       then kFxaaExtreme
  else kNone.

(** [const char* EmulatorWindow::GetCvarValueForGuestOutputPaintEffect(effect)] *)
Definition GetCvarValueForGuestOutputPaintEffect (effect : Effect) : string :=
  match effect with
  | kCas => "cas"
  | kFsr => "fsr"
  | _ => ""
  end.

(** [EmulatorWindow::GetGuestOutputPaintEffectForCvarValue(const std::string&)] *)
Definition GetGuestOutputPaintEffectForCvarValue (cvar_value : string) : Effect :=
  if String.eqb cvar_value (GetCvarValueForGuestOutputPaintEffect kCas) then kCas
  else if String.eqb cvar_value (GetCvarValueForGuestOutputPaintEffect kFsr)
       then kFsr
  else kBilinear.

(** What the anti-aliasing part of the dialog works on: the effect the
    command processor was asked for, and the configuration variable
    [postprocess_antialiasing]. *)
Record AntiAliasingState : Type := mkAntiAliasingState {
  desired_swap_post_effect : SwapPostEffect;
  postprocess_antialiasing : string
}.

(** [DisplayConfigDialog::OnDraw], lines 298-310: what the dialog does
    with the effect [new_swap_post_effect] the radio buttons ended on.
    [SetDesiredSwapPostEffect] stores the effect, [OVERRIDE_string] the
    configuration value. *)
Definition OnDraw_swap_post_effect (new_swap_post_effect : SwapPostEffect)
    (s : AntiAliasingState) : AntiAliasingState :=
  let current_swap_post_effect := desired_swap_post_effect s in
  let s :=
    if negb (SwapPostEffect_eqb current_swap_post_effect new_swap_post_effect)
    then {| desired_swap_post_effect := new_swap_post_effect;
            postprocess_antialiasing := postprocess_antialiasing s |}
    else s in
  if negb (SwapPostEffect_eqb
             (GetSwapPostEffectForCvarValue (postprocess_antialiasing s))
             new_swap_post_effect)
  then {| desired_swap_post_effect := desired_swap_post_effect s;
          postprocess_antialiasing :=
            GetCvarValueForSwapPostEffect new_swap_post_effect |}
  else s.

(** [DisplayConfigDialog::OnDraw], lines 465-472: the configuration
    variable [postprocess_scaling_and_sharpening] is overridden when the
    effect it stands for is not the one of the new presenter
    configuration.  The effect of [GetGuestOutputPaintConfigForCvars()]
    is the one that function sets,
    [GetGuestOutputPaintEffectForCvarValue(cvars::postprocess_scaling_and_sharpening)]. *)
Definition OnDraw_scaling_and_sharpening (new_effect : Effect)
    (postprocess_scaling_and_sharpening : string) : string :=
  if negb (Effect_eqb
             (GetGuestOutputPaintEffectForCvarValue postprocess_scaling_and_sharpening)
             new_effect)
  then GetCvarValueForGuestOutputPaintEffect new_effect
  else postprocess_scaling_and_sharpening.

(** *** Fullscreen *)

(** [ui::Window::CursorVisibility], with the enumerators the window names. *)
Inductive CursorVisibility : Type := kVisible | kAutoHidden.

(** The part of [ui::Window] the emulator window drives: the window keeps
    the fullscreen flag and the cursor visibility it was last given. *)
Record Window : Type := mkWindow {
  IsFullscreen : bool;
  cursor_visibility : CursorVisibility
}.

(** [void EmulatorWindow::SetFullscreen(bool fullscreen)] *)
Definition SetFullscreen (fullscreen : bool) (window_ : Window) : Window :=
  if Bool.eqb (IsFullscreen window_) fullscreen then window_
  else
    (* window_->SetFullscreen(fullscreen); window_->SetCursorVisibility(...) *)
    {| IsFullscreen := fullscreen;
       cursor_visibility := if fullscreen then kAutoHidden else kVisible |}.

(** [void EmulatorWindow::ToggleFullscreen()] *)
Definition ToggleFullscreen (window_ : Window) : Window :=
  SetFullscreen (negb (IsFullscreen window_)) window_.

(** The cursor is hidden automatically exactly in fullscreen. *)
Definition cursor_follows_fullscreen (window_ : Window) : Prop :=
  cursor_visibility window_ = if IsFullscreen window_ then kAutoHidden else kVisible.

(** *** Keyboard shortcuts *)

(** [ui::VirtualKey]: the keys [OnKeyDown] has a case for, and all others. *)
Inductive VirtualKey : Type :=
| kO | kMultiply | kSubtract | kAdd
| kF1 | kF2 | kF3 | kF4 | kF5 | kF6 | kF7 | kF8 | kF11
| kEscape | kPause | kCancel
| kOtherKey (code : Z).

(** [ui::KeyEvent]: what the handler reads and the flag it sets. *)
Record KeyEvent : Type := mkKeyEvent {
  virtual_key : VirtualKey;
  is_ctrl_pressed : bool;
  is_handled : bool
}.

Definition set_handled (value : bool) (e : KeyEvent) : KeyEvent :=
  {| virtual_key := virtual_key e;
     is_ctrl_pressed := is_ctrl_pressed e;
     is_handled := value |}.

(** The calls [OnKeyDown] makes, one per shortcut. *)
Inductive Call : Type :=
| Call_FileOpen
| Call_CpuTimeScalarReset
| Call_CpuTimeScalarSetHalf
| Call_CpuTimeScalarSetDouble
| Call_Profiler_ToggleDisplay
| Call_GpuTraceFrame
| Call_GpuClearCaches
| Call_ToggleDisplayConfigDialog
| Call_ToggleFullscreen
| Call_SetFullscreen (fullscreen : bool)
| Call_SaveToFile (path : string)
| Call_RestoreFromFile (path : string)
| Call_CpuBreakIntoDebugger
| Call_CpuBreakIntoHostDebugger
| Call_ShowFAQ
| Call_ShowBuildCommit.

(** [void EmulatorWindow::OnKeyDown(ui::KeyEvent& e)]: the calls made, in
    order, and the event as the handler leaves it.  [DEBUG] says whether
    the build defines the macro of that name; [window_is_fullscreen] is
    what [window_->IsFullscreen()] answers.  A [return] inside the switch
    skips [e.set_handled(true)], a [break] reaches it. *)
Definition OnKeyDown (DEBUG emulator_initialized_ window_is_fullscreen : bool)
    (e : KeyEvent) : list Call * KeyEvent :=
  if negb emulator_initialized_ then ([], e)
  else
    match virtual_key e with
    | kO =>
        if negb (is_ctrl_pressed e) then ([], e)
        else ([Call_FileOpen], set_handled true e)
    | kMultiply => ([Call_CpuTimeScalarReset], set_handled true e)
    | kSubtract => ([Call_CpuTimeScalarSetHalf], set_handled true e)
    | kAdd => ([Call_CpuTimeScalarSetDouble], set_handled true e)
    | kF3 => ([Call_Profiler_ToggleDisplay], set_handled true e)
    | kF4 => ([Call_GpuTraceFrame], set_handled true e)
    | kF5 => ([Call_GpuClearCaches], set_handled true e)
    | kF6 => ([Call_ToggleDisplayConfigDialog], set_handled true e)
    | kF11 => ([Call_ToggleFullscreen], set_handled true e)
    | kEscape =>
        (* Allow users to escape fullscreen (but not enter it). *)
        if negb window_is_fullscreen then ([], e)
        else ([Call_SetFullscreen false], set_handled true e)
    | kF7 =>
        if DEBUG then ([Call_SaveToFile "test.sav"], set_handled true e)
        else ([], e)
    | kF8 =>
        if DEBUG then ([Call_RestoreFromFile "test.sav"], set_handled true e)
        else ([], e)
    | kPause => ([Call_CpuBreakIntoDebugger], set_handled true e)
    | kCancel => ([Call_CpuBreakIntoHostDebugger], set_handled true e)
    | kF1 => ([Call_ShowFAQ], set_handled true e)
    | kF2 => ([Call_ShowBuildCommit], set_handled true e)
    | kOtherKey _ => ([], e)
    end.

(** The two calls of [OnKeyDown] that drive [window_], followed into the
    bodies of [SetFullscreen] and [ToggleFullscreen]; the other calls are
    not followed ([None]). *)
Definition follow_call (c : Call) (window_ : Window) : option Window :=
  match c with
  | Call_ToggleFullscreen => Some (ToggleFullscreen window_)
  | Call_SetFullscreen fullscreen => Some (SetFullscreen fullscreen window_)
  | _ => None
  end.

Fixpoint follow_calls (calls : list Call) (window_ : Window) : option Window :=
  match calls with
  | [] => Some window_
  | c :: rest =>
      match follow_call c window_ with
      | Some window' => follow_calls rest window'
      | None => None
      end
  end.

(** The window after [OnKeyDown], when every call it makes is one that is
    followed; [window_->IsFullscreen()] is read from the window itself. *)
Definition OnKeyDown_window (DEBUG emulator_initialized_ : bool) (e : KeyEvent)
    (window_ : Window) : option Window :=
  follow_calls (fst (OnKeyDown DEBUG emulator_initialized_ (IsFullscreen window_) e))
               window_.

(** *** Launching a dropped file *)

(** [void EmulatorWindow::FileDrop(const std::filesystem::path& filename)].
    [LaunchPath] stands for [emulator_->LaunchPath], whatever it does. *)
Definition FileDrop (emulator_initialized_ : bool)
    (LaunchPath : string -> M X_RESULT) (filename : string) : M unit :=
  if negb emulator_initialized_ then ret tt
  else
    result <- LaunchPath filename ;;
    if XFAILED result then
      (* TODO: Display a message box. *)
      XELOGE "Failed to launch target: {:08X}" [result]
    else ret tt.

(** [void EmulatorWindow::FileOpen()].  The file picker is configured
    (open mode, files, single selection, the title and the extensions) and
    shown; [picker_shown] is what [file_picker->Show] answers and
    [selected_files] what [file_picker->selected_files()] holds.  A path is
    empty when it has no characters; [absolute] stands for
    [std::filesystem::absolute]. *)
Definition FileOpen (picker_shown : bool) (selected_files : list string)
    (absolute : string -> string) (LaunchPath : string -> M X_RESULT) : M unit :=
  let path := EmptyString in
  let path :=
    if picker_shown then
      match selected_files with
      | first :: _ => first
      | [] => path
      end
    else path in
  if negb (String.eqb path EmptyString) then
    (* Normalize the path and make absolute. *)
    let abs_path := absolute path in
    result <- LaunchPath abs_path ;;
    if XFAILED result then
      (* TODO: Display a message box. *)
      XELOGE "Failed to launch target: {:08X}" [result]
    else ret tt
  else ret tt.

(** *** The compatibility page *)

Definition base_url : string :=
  "https://github.com/xenia-project/game-compatibility/issues".

(** [void EmulatorWindow::ShowCompatibility()]: the address handed to
    [LaunchWebBrowser] for the title [title_id].
    [fmt::format("{}?q=is%3Aissue+is%3Aopen+{:08X}", base_url, title_id)]
    is the base address, the text between the two fields and the eight
    hexadecimal digits of the title, one after the other. *)
Definition ShowCompatibility (title_id : Z) : string :=
  (* Avoid searching for a title ID of "00000000". *)
  if title_id =? 0 then base_url
  else (base_url ++ "?q=is%3Aissue+is%3Aopen+" ++ hex8 title_id)%string.

End EmulatorWindow.

(* ===================================================================== *)
(** ** The switch against the table                                       *)
(* ===================================================================== *)

(** One call, whatever the state it starts in: the status the table gives,
    the memory unchanged, and two events appended. *)
Lemma DispatchMessageSync_run (this : App) (message buffer_ptr buffer_length : Z)
    (w : World) :
  DispatchMessageSync this message buffer_ptr buffer_length w =
    (Done (Some (status_of message)),
     {| memory := memory w;
        events := events w ++ [EvTranslate buffer_ptr;
                               EvLog (logged_entry this message buffer_ptr buffer_length)] |}).
Proof.
  unfold DispatchMessageSync, DispatchMessageSync_body, after_translate,
    switch_message, status_of, logged_entry, xime_table.
  cbn [lookup_opcode].
  repeat match goal with
         | |- context [?m =? ?k] =>
             destruct (m =? k); [ cbn; rewrite <- app_assoc; reflexivity | ]
         end.
  cbn. rewrite <- app_assoc. reflexivity.
Qed.

Lemma lookup_opcode_In (message : Z) (table : list (Z * string)) :
  In message (map fst table) -> exists name, lookup_opcode message table = Some name.
Proof.
  induction table as [| [k name] table IH]; cbn [map fst lookup_opcode In].
  - intros [].
  - intros [Hk | Hin].
    + subst k. rewrite Z.eqb_refl. now exists name.
    + destruct (message =? k); [now exists name | auto].
Qed.

Lemma lookup_opcode_not_In (message : Z) (table : list (Z * string)) :
  ~ In message (map fst table) -> lookup_opcode message table = None.
Proof.
  induction table as [| [k name] table IH]; cbn [map fst lookup_opcode In].
  - reflexivity.
  - intros Hn. destruct (Z.eqb_spec message k) as [-> | _].
    + exfalso. apply Hn. now left.
    + apply IH. intros Hin. apply Hn. now right.
Qed.

Lemma status_of_known (message : Z) :
  In message xime_messages -> status_of message = X_E_SUCCESS.
Proof.
  intros Hin. unfold status_of.
  destruct (lookup_opcode_In message xime_table Hin) as [name ->]. reflexivity.
Qed.

Lemma status_of_unknown (message : Z) :
  ~ In message xime_messages -> status_of message = X_STATUS_UNSUCCESSFUL.
Proof.
  intros Hn. unfold status_of.
  now rewrite (lookup_opcode_not_In message xime_table Hn).
Qed.

Lemma logged_entry_unknown (this : App) (message buffer_ptr buffer_length : Z) :
  ~ In message xime_messages ->
  logged_entry this message buffer_ptr buffer_length =
    unmatched_entry this message buffer_ptr buffer_length.
Proof.
  intros Hn. unfold logged_entry.
  now rewrite (lookup_opcode_not_In message xime_table Hn).
Qed.

(** Every line the dispatch logs carries the raw [buffer_ptr] among its
    arguments. *)
Lemma logged_entry_args (this : App) (message buffer_ptr buffer_length : Z) :
  In buffer_ptr (args (logged_entry this message buffer_ptr buffer_length)).
Proof.
  unfold logged_entry, unmatched_entry.
  destruct (lookup_opcode message xime_table); cbn; auto.
Qed.

(** Dereferencing the null pointer is a host fault. *)
Lemma load_u8_null_faults (w : World) : fst (load_u8 None w) = HostFault.
Proof. reflexivity. Qed.

(** The code after the translation never mentions [buffer]. *)
Lemma after_translate_ignores_buffer (this : App)
    (message buffer_ptr buffer_length : Z) (b1 b2 : Memory.host_ptr) :
  after_translate this message buffer_ptr buffer_length b1 =
  after_translate this message buffer_ptr buffer_length b2.
Proof. reflexivity. Qed.

(** X1. An unmatched message is answered with [X_STATUS_UNSUCCESSFUL] after
    exactly one error-severity call of the log, which is handed the app id,
    the message and both raw arguments. *)
Lemma DispatchMessageSync_unmatched (message buffer_ptr buffer_length : Z) (w : World) :
  ~ In message xime_messages ->
  DispatchMessageSync XimeApp message buffer_ptr buffer_length w =
    (Done (Some X_STATUS_UNSUCCESSFUL),
     {| memory := memory w;
        events := events w ++
          [EvTranslate buffer_ptr;
           EvLog (unmatched_entry XimeApp message buffer_ptr buffer_length)] |}).
Proof.
  intros Hn. rewrite DispatchMessageSync_run.
  now rewrite status_of_unknown, logged_entry_unknown.
Qed.

Lemma DispatchMessageSync_unmatched_witness :
  fst (DispatchMessageSync XimeApp 0x00400099 0x1000 4 empty_world) =
    Done (Some X_STATUS_UNSUCCESSFUL).
Proof.
  assert (Hn : ~ In 0x00400099 xime_messages).
  { simpl. intros [H | [H | [H | [H | [H | []]]]]]; discriminate H. }
  exact (f_equal fst
    (DispatchMessageSync_unmatched 0x00400099 0x1000 4 empty_world Hn)).
Defined.

(** X2. Whatever unmatched message a call is made with, and whatever its
    arguments and the state, the one line the call logs is at error
    severity and reads as the format string itself, placeholders and all:
    the text is the same for every message and every argument. *)
Theorem DispatchMessageSync_unmatched_line
    (message buffer_ptr buffer_length : Z) (w : World) :
  ~ In message xime_messages ->
  exists e : LogEntry,
    events (snd (DispatchMessageSync XimeApp message buffer_ptr buffer_length w)) =
      (events w ++ [EvTranslate buffer_ptr; EvLog e])%list /\
    level e = Error /\
    render e =
      Some "Unimplemented Xime message app=%.8X, msg=%.8X, arg1=%.8X, arg2=%.8X".
Proof.
  intros Hn.
  exists (logged_entry XimeApp message buffer_ptr buffer_length).
  rewrite DispatchMessageSync_run. cbn [snd events].
  split; [reflexivity |].
  rewrite (logged_entry_unknown XimeApp message buffer_ptr buffer_length Hn).
  split; reflexivity.
Qed.

Lemma DispatchMessageSync_unmatched_line_witness :
  exists e : LogEntry,
    events (snd (DispatchMessageSync XimeApp 0x00400006 0x82001000 0x20 empty_world)) =
      [EvTranslate 0x82001000; EvLog e] /\
    level e = Error /\
    render e =
      Some "Unimplemented Xime message app=%.8X, msg=%.8X, arg1=%.8X, arg2=%.8X".
Proof.
  apply (DispatchMessageSync_unmatched_line 0x00400006 0x82001000 0x20 empty_world).
  simpl. intros [H | [H | [H | [H | [H | []]]]]]; discriminate H.
Defined.

(* ===================================================================== *)
(** ** Result codes: the failure predicate                                *)
(* ===================================================================== *)

Lemma land_severity_mask (c : Z) :
  is_uint32 c -> Z.land c 0xC0000000 = Z.shiftl (severity c) 30.
Proof.
  intros [Hlo Hhi]. unfold severity.
  apply Z.bits_inj'. intros n Hn.
  rewrite Z.land_spec.
  change 0xC0000000 with (Z.shiftl 3 30).
  destruct (Z.ltb_spec n 30) as [Hlt | Hge].
  - rewrite !Z.shiftl_spec_low by lia. apply andb_false_r.
  - rewrite !Z.shiftl_spec by lia.
    rewrite Z.shiftr_spec by lia.
    replace (n - 30 + 30) with n by lia.
    destruct (Z.ltb_spec n 32) as [Hlt32 | Hge32].
    + assert (Hn' : n - 30 = 0 \/ n - 30 = 1) by lia.
      destruct Hn' as [-> | ->]; cbn; apply andb_true_r.
    + replace (Z.testbit c n) with false; [reflexivity |].
      symmetry. rewrite <- (Z.mod_small c (2 ^ 32)) by lia.
      apply Z.mod_pow2_bits_high. lia.
Qed.

Lemma XFAILED_severity (c : Z) :
  is_uint32 c -> XFAILED c = negb (severity c =? 0).
Proof.
  intros Hc. unfold XFAILED, XSUCCEEDED.
  rewrite (land_severity_mask c Hc), Z.shiftl_mul_pow2 by lia.
  f_equal.
  destruct (Z.eqb_spec (severity c) 0) as [-> | Hne]; [reflexivity |].
  apply Z.eqb_neq. lia.
Qed.

(** C6. The failure predicate [XFAILED] ([isFailure]) answers [false] on
    [X_E_SUCCESS] and [true] on [X_STATUS_UNSUCCESSFUL], and on 32-bit
    codes it is a function of the severity bits alone: two codes with the
    same severity field are both failures or both successes. *)
Theorem XFAILED_sentinels_and_severity (c1 c2 : Z) :
  is_uint32 c1 -> is_uint32 c2 -> severity c1 = severity c2 ->
  XFAILED X_E_SUCCESS = false /\
  XFAILED X_STATUS_UNSUCCESSFUL = true /\
  XFAILED c1 = XFAILED c2 /\
  XFAILED c1 = negb (severity c1 =? 0).
Proof.
  intros H1 H2 Hs. repeat split; try reflexivity.
  - now rewrite (XFAILED_severity c1 H1), (XFAILED_severity c2 H2), Hs.
  - exact (XFAILED_severity c1 H1).
Qed.

Lemma XFAILED_sentinels_and_severity_witness :
  is_uint32 0xC0000001 /\ is_uint32 0xC0000022 /\
  XFAILED 0xC0000001 = XFAILED 0xC0000022.
Proof.
  assert (H1 : is_uint32 0xC0000001) by (unfold is_uint32; lia).
  assert (H2 : is_uint32 0xC0000022) by (unfold is_uint32; lia).
  split; [exact H1 | split; [exact H2 |]].
  exact (proj1 (proj2 (proj2
    (XFAILED_sentinels_and_severity 0xC0000001 0xC0000022 H1 H2 eq_refl)))).
Defined.

(* ===================================================================== *)
(** ** Results of the dispatch                                            *)
(* ===================================================================== *)

(** C1. The XIME app is the service 0xF5, and each of its five messages
    0x00400001 .. 0x00400005 is answered with [X_E_SUCCESS], whatever the
    buffer address, the length and the state of the machine. *)
Theorem DispatchMessageSync_known_message_succeeds
    (message buffer_ptr buffer_length : Z) (w : World) :
  In message [0x00400001; 0x00400002; 0x00400003; 0x00400004; 0x00400005] ->
  app_id XimeApp = 0xF5 /\
  fst (DispatchMessageSync XimeApp message buffer_ptr buffer_length w) =
    Done (Some X_E_SUCCESS).
Proof.
  intros Hin. split; [reflexivity |].
  rewrite DispatchMessageSync_run. cbn [fst].
  now rewrite (status_of_known message Hin).
Qed.

Lemma DispatchMessageSync_known_message_succeeds_witness :
  fst (DispatchMessageSync XimeApp 0x00400001 0 0 empty_world) =
    Done (Some X_E_SUCCESS).
Proof.
  apply (DispatchMessageSync_known_message_succeeds 0x00400001 0 0 empty_world).
  simpl. left. reflexivity.
Defined.

(** C2 (at the input where the claim fails). The message 0x00400099 is
    answered with [X_STATUS_UNSUCCESSFUL] after one error-severity log
    call, but the line that call produces is the format string itself: it
    shows neither the app id 0xF5 nor the message value. *)
Theorem DispatchMessageSync_unmatched_line_is_literal :
  DispatchMessageSync XimeApp 0x00400099 0 0 empty_world =
    (Done (Some X_STATUS_UNSUCCESSFUL),
     {| memory := [];
        events := [EvTranslate 0;
                   EvLog (unmatched_entry XimeApp 0x00400099 0 0)] |}) /\
  level (unmatched_entry XimeApp 0x00400099 0 0) = Error /\
  render (unmatched_entry XimeApp 0x00400099 0 0) =
    Some "Unimplemented Xime message app=%.8X, msg=%.8X, arg1=%.8X, arg2=%.8X" /\
  render (unmatched_entry XimeApp 0x00400099 0 0) =
    render (unmatched_entry XimeApp 0x00400077 0x1000 4).
Proof. repeat split. Qed.

(** C3. Every call returns: for all arguments and every state there is
    exactly one result code the call ends with; no path faults or reaches
    the end of the body without a [return]. *)
Theorem DispatchMessageSync_returns_exactly_one_code
    (message buffer_ptr buffer_length : Z) (w : World) :
  exists! r : X_RESULT,
    fst (DispatchMessageSync XimeApp message buffer_ptr buffer_length w) =
      Done (Some r).
Proof.
  exists (status_of message). split.
  - now rewrite DispatchMessageSync_run.
  - intros r Hr. rewrite DispatchMessageSync_run in Hr. cbn [fst] in Hr.
    congruence.
Qed.

(** C7. Two calls with the same arguments return the same result code,
    whatever states they start in; in particular a call repeated right
    after itself returns what the first one did. *)
Theorem DispatchMessageSync_repeatable
    (message buffer_ptr buffer_length : Z) (w1 w2 : World) :
  fst (DispatchMessageSync XimeApp message buffer_ptr buffer_length w1) =
  fst (DispatchMessageSync XimeApp message buffer_ptr buffer_length w2) /\
  fst (DispatchMessageSync XimeApp message buffer_ptr buffer_length
         (snd (DispatchMessageSync XimeApp message buffer_ptr buffer_length w1))) =
  fst (DispatchMessageSync XimeApp message buffer_ptr buffer_length w1).
Proof. now rewrite !DispatchMessageSync_run. Qed.

(** C9. The result code depends on the message alone: neither the buffer
    address, nor the pointer it translates to (the memory may differ), nor
    the length changes it. *)
Theorem DispatchMessageSync_result_depends_on_message_only
    (message ptr1 len1 ptr2 len2 : Z) (w1 w2 : World) :
  fst (DispatchMessageSync XimeApp message ptr1 len1 w1) =
  fst (DispatchMessageSync XimeApp message ptr2 len2 w2).
Proof. now rewrite !DispatchMessageSync_run. Qed.

(* ===================================================================== *)
(** ** Address translation and effects of the dispatch                    *)
(* ===================================================================== *)

(** C4 (as stated, refuted). The case body of message 0x00400001, run
    twice with the same translated pointer (null) and the same length but
    two different guest addresses, logs each time the guest address it was
    called with: the handlers do read the raw guest address. *)
Lemma XimeInit_handler_logs_guest_address :
  events (snd (switch_message 0x00400001 0x1000 0 None empty_world)) =
    [EvLog {| level := Debug;
              format := "XimeInit({:08X}, {:08X}), unimplemented";
              args := [0x1000; 0] |}] /\
  switch_message 0x00400001 0x1000 0 None empty_world <>
  switch_message 0x00400001 0x2000 0 None empty_world.
Proof.
  split; [reflexivity |].
  intros H. vm_compute in H. discriminate H.
Qed.

(** C4 (amended). In every call the translation of [buffer_ptr] happens
    exactly once and is the first thing the call does, ahead of the switch
    on the message; the code that follows does not use the translated
    pointer; and each of the five handlers is handed the raw guest address
    and the length and logs one debug line that shows both, as passed, in
    eight hexadecimal digits. *)
Theorem DispatchMessageSync_translates_once_first
    (message buffer_ptr buffer_length : Z) (w : World) :
  exists e : LogEntry,
    events (snd (DispatchMessageSync XimeApp message buffer_ptr buffer_length w)) =
      (events w ++ [EvTranslate buffer_ptr; EvLog e])%list /\
    (forall b1 b2 : Memory.host_ptr,
       after_translate XimeApp message buffer_ptr buffer_length b1 =
       after_translate XimeApp message buffer_ptr buffer_length b2) /\
    (forall name : string,
       In (message, name) xime_table ->
       level e = Debug /\
       args e = [buffer_ptr; buffer_length] /\
       render e =
         Some (name ++ "(" ++ hex8 buffer_ptr ++ ", " ++ hex8 buffer_length
               ++ "), unimplemented")%string).
Proof.
  exists (logged_entry XimeApp message buffer_ptr buffer_length).
  rewrite DispatchMessageSync_run. cbn [snd events].
  split; [reflexivity |]. split.
  - intros b1 b2. apply after_translate_ignores_buffer.
  - intros name Hin. cbn in Hin.
    repeat (destruct Hin as [Heq | Hin];
            [injection Heq as <- <-; repeat split |]).
    contradiction.
Qed.

(** C5. The translator answers address 0 with null for every memory map,
    as "no buffer" and not as a miss of the map; and with [buffer_ptr = 0]
    each of the five stubs, none of which needs a buffer, still returns
    its success code, which the failure predicate accepts. *)
Theorem TranslateVirtual_zero_is_null_not_error
    (message buffer_length : Z) (w : World) :
  In message xime_messages ->
  (forall m : Memory.t,
     Memory.resolve m 0 = Memory.NoBuffer /\ Memory.TranslateVirtual m 0 = None) /\
  fst (DispatchMessageSync XimeApp message 0 buffer_length w) =
    Done (Some X_E_SUCCESS) /\
  XFAILED X_E_SUCCESS = false.
Proof.
  intros Hin. repeat split.
  rewrite DispatchMessageSync_run. cbn [fst].
  now rewrite (status_of_known message Hin).
Qed.

Lemma TranslateVirtual_zero_is_null_not_error_witness :
  Memory.TranslateVirtual [Memory.mkHeap 0 0x7000 [1; 2; 3]] 0 = None /\
  fst (DispatchMessageSync XimeApp 0x00400005 0 16
         {| memory := [Memory.mkHeap 0 0x7000 [1; 2; 3]]; events := [] |}) =
    Done (Some X_E_SUCCESS).
Proof.
  assert (Hin : In 0x00400005 xime_messages) by (simpl; tauto).
  destruct (TranslateVirtual_zero_is_null_not_error 0x00400005 16
              {| memory := [Memory.mkHeap 0 0x7000 [1; 2; 3]]; events := [] |} Hin)
    as [Hnull [Hrun _]].
  split; [exact (proj2 (Hnull _)) | exact Hrun].
Defined.

(** C8. A call leaves the guest memory as it found it: the state after
    the call has the memory of the state before, and all the call adds to
    the trace is one address translation (a read of the map) and one log
    line; it stores nothing. *)
Theorem DispatchMessageSync_frame
    (message buffer_ptr buffer_length : Z) (w : World) :
  memory (snd (DispatchMessageSync XimeApp message buffer_ptr buffer_length w)) =
    memory w /\
  exists e : LogEntry,
    events (snd (DispatchMessageSync XimeApp message buffer_ptr buffer_length w)) =
      (events w ++ [EvTranslate buffer_ptr; EvLog e])%list.
Proof.
  rewrite DispatchMessageSync_run. cbn [snd memory events].
  split; [reflexivity |].
  now exists (logged_entry XimeApp message buffer_ptr buffer_length).
Qed.

(** C10. No path dereferences the translated pointer: the code after the
    translation is the same whatever pointer it is given (null included),
    the call never faults the host, and nothing it adds to the trace is a
    load or a store through a host pointer. *)
Theorem DispatchMessageSync_never_dereferences_buffer
    (message buffer_ptr buffer_length : Z) (w : World) :
  (forall b1 b2 : Memory.host_ptr,
     after_translate XimeApp message buffer_ptr buffer_length b1 =
     after_translate XimeApp message buffer_ptr buffer_length b2) /\
  fst (DispatchMessageSync XimeApp message buffer_ptr buffer_length w) <> HostFault /\
  exists new : list Event,
    events (snd (DispatchMessageSync XimeApp message buffer_ptr buffer_length w)) =
      (events w ++ new)%list /\
    (forall p, ~ In (EvLoad p) new) /\
    (forall p v, ~ In (EvStore p v) new).
Proof.
  split; [intros b1 b2; apply after_translate_ignores_buffer |].
  rewrite DispatchMessageSync_run. cbn [fst snd events].
  split; [discriminate |].
  eexists. split; [reflexivity |].
  split; intros; cbn [In]; intros [H | [H | []]]; discriminate H.
Qed.

(* ===================================================================== *)
(** ** Hexadecimal fields                                                 *)
(* ===================================================================== *)

Lemma hex_digit_value_hex_digit (d : Z) :
  0 <= d < 16 -> hex_digit_value (hex_digit d) = d.
Proof.
  intros Hd.
  assert (H : In d [0; 1; 2; 3; 4; 5; 6; 7; 8; 9; 10; 11; 12; 13; 14; 15])
    by (simpl; lia).
  simpl in H.
  repeat (destruct H as [<- | H]; [reflexivity |]).
  contradiction.
Qed.

Lemma hex_value_from_hex_digits (n : nat) :
  forall acc v : Z,
    hex_value_from acc (hex_digits n v) =
      acc * 16 ^ Z.of_nat n + v mod 16 ^ Z.of_nat n.
Proof.
  induction n as [| k IH]; intros acc v.
  - cbn [hex_digits hex_value_from]. rewrite Z.pow_0_r, Z.mod_1_r. lia.
  - cbn [hex_digits hex_value_from].
    rewrite IH, hex_digit_value_hex_digit by (apply Z.mod_pos_bound; lia).
    rewrite Nat2Z.inj_succ, Z.pow_succ_r by lia.
    rewrite (Z.mul_comm 16 (16 ^ Z.of_nat k)).
    rewrite (Z.rem_mul_r v (16 ^ Z.of_nat k) 16) by lia.
    ring.
Qed.

(** Reading the eight digits of a 32-bit value gives the value back. *)
Lemma hex_value_hex8 (v : Z) : is_uint32 v -> hex_value (hex8 v) = v.
Proof.
  intros [Hlo Hhi]. unfold hex_value, hex8.
  rewrite hex_value_from_hex_digits.
  change (16 ^ Z.of_nat 8) with (2 ^ 32).
  rewrite Z.mod_small; lia.
Qed.

Lemma hex8_inj (a b : Z) :
  is_uint32 a -> is_uint32 b -> hex8 a = hex8 b -> a = b.
Proof.
  intros Ha Hb Heq.
  rewrite <- (hex_value_hex8 a Ha), <- (hex_value_hex8 b Hb).
  now rewrite Heq.
Qed.

Lemma append_inj_l (s a b : string) :
  (s ++ a)%string = (s ++ b)%string -> a = b.
Proof.
  induction s as [| c s IH]; cbn [String.append]; intros H.
  - exact H.
  - injection H as H. auto.
Qed.

(* ===================================================================== *)
(** ** More on the XIME dispatch                                          *)
(* ===================================================================== *)

(** X4. A caller that tests the returned code with [XFAILED] sees a
    failure exactly for the messages without a case. *)
Theorem DispatchMessageSync_fails_iff_unmatched
    (message buffer_ptr buffer_length : Z) (w : World) :
  exists r : X_RESULT,
    fst (DispatchMessageSync XimeApp message buffer_ptr buffer_length w) =
      Done (Some r) /\
    (XFAILED r = true <-> ~ In message xime_messages).
Proof.
  exists (status_of message). split; [now rewrite DispatchMessageSync_run |].
  destruct (in_dec Z.eq_dec message xime_messages) as [Hin | Hn].
  - rewrite (status_of_known message Hin).
    split; [discriminate | contradiction].
  - rewrite (status_of_unknown message Hn).
    split; [intros _; exact Hn | reflexivity].
Qed.

(** X5. Messages dispatched one after another: every call is answered
    from the table independently of the calls before it, the guest memory
    stays as it was, and the trace grows by the two events of each call,
    in order. *)
Theorem DispatchMessageSync_all_run (this : App) (calls : list (Z * Z * Z)) :
  forall w : World,
    DispatchMessageSync_all this calls w =
      (Done (map (fun c => Some (status_of (fst (fst c)))) calls),
       {| memory := memory w;
          events := events w ++ flat_map (call_events this) calls |}).
Proof.
  induction calls as [| [[message buffer_ptr] buffer_length] rest IH]; intros w.
  - cbn. rewrite app_nil_r. now destruct w.
  - cbn [DispatchMessageSync_all]. unfold bind at 1.
    rewrite DispatchMessageSync_run. unfold bind at 1.
    rewrite IH. cbn. now rewrite <- app_assoc.
Qed.

(** X6. For each message of the table the call logs, after the
    translation, one debug line that reads
    [<Name>(<buffer_ptr>, <buffer_length>), unimplemented] with both
    arguments as eight hexadecimal digits. *)
Theorem DispatchMessageSync_known_line
    (message : Z) (name : string) (buffer_ptr buffer_length : Z) (w : World) :
  In (message, name) xime_table ->
  exists e : LogEntry,
    events (snd (DispatchMessageSync XimeApp message buffer_ptr buffer_length w)) =
      (events w ++ [EvTranslate buffer_ptr; EvLog e])%list /\
    level e = Debug /\
    render e =
      Some (name ++ "(" ++ hex8 buffer_ptr ++ ", " ++ hex8 buffer_length
            ++ "), unimplemented")%string.
Proof.
  intros Hin.
  exists (logged_entry XimeApp message buffer_ptr buffer_length).
  rewrite DispatchMessageSync_run. cbn [snd events].
  split; [reflexivity |].
  cbn in Hin.
  repeat (destruct Hin as [Heq | Hin];
          [injection Heq as <- <-; split; reflexivity |]).
  contradiction.
Qed.

Lemma DispatchMessageSync_known_line_witness :
  exists e : LogEntry,
    events (snd (DispatchMessageSync XimeApp 0x00400004 0x82000000 0x40 empty_world)) =
      [EvTranslate 0x82000000; EvLog e] /\
    level e = Debug /\
    render e = Some "XimeSetCharacter(82000000, 00000040), unimplemented".
Proof.
  apply (DispatchMessageSync_known_line 0x00400004 "XimeSetCharacter"
           0x82000000 0x40 empty_world).
  simpl. tauto.
Defined.

(* ===================================================================== *)
(** ** The emulator window                                                *)
(* ===================================================================== *)

Import EmulatorWindow.

Lemma SwapPostEffect_eqb_eq (a b : SwapPostEffect) :
  SwapPostEffect_eqb a b = true <-> a = b.
Proof. destruct a, b; cbn; split; congruence. Qed.

Lemma Effect_eqb_eq (a b : Effect) : Effect_eqb a b = true <-> a = b.
Proof. destruct a, b; cbn; split; congruence. Qed.

Lemma append_empty_r (s : string) : (s ++ "")%string = s.
Proof. induction s as [| c s IH]; cbn; [reflexivity | now rewrite IH]. Qed.

Lemma append_neq_self (s a : string) : a <> ""%string -> (s ++ a)%string <> s.
Proof.
  intros Ha H. apply Ha.
  apply (append_inj_l s). now rewrite append_empty_r.
Qed.

Lemma prefix_append (s x : string) : prefix s (s ++ x) = true.
Proof.
  induction s as [| c s IH]; cbn.
  - now destruct x.
  - destruct (ascii_dec c c); [exact IH | contradiction].
Qed.


(** X8. The same for the scaling and sharpening setting. *)
Theorem GuestOutputPaintEffect_cvar_round_trip :
  (forall effect : Effect,
     GetGuestOutputPaintEffectForCvarValue
       (GetCvarValueForGuestOutputPaintEffect effect) = effect) /\
  (forall cvar_value : string,
     GetCvarValueForGuestOutputPaintEffect
       (GetGuestOutputPaintEffectForCvarValue cvar_value) = cvar_value
     <-> In cvar_value [""; "cas"; "fsr"]%string).
Proof.
  split.
  - intros []; reflexivity.
  - intros s. unfold GetGuestOutputPaintEffectForCvarValue.
    cbn [GetCvarValueForGuestOutputPaintEffect].
    destruct (String.eqb_spec s "cas") as [-> | H1]; [cbn; tauto |].
    destruct (String.eqb_spec s "fsr") as [-> | H2]; [cbn; tauto |].
    cbn. split.
    + intros <-. now left.
    + intros [<- | [<- | [<- | []]]]; congruence.
Qed.

(** X9. Once the dialog has dealt with the selected anti-aliasing effect,
    the command processor is asked for that effect and the configuration
    variable stands for it; a variable that already stood for it keeps its
    text, whatever it was; and dealing with the same selection again
    changes nothing. *)
Theorem OnDraw_swap_post_effect_in_sync
    (new_swap_post_effect : SwapPostEffect) (s : AntiAliasingState) :
  let s' := OnDraw_swap_post_effect new_swap_post_effect s in
  desired_swap_post_effect s' = new_swap_post_effect /\
  GetSwapPostEffectForCvarValue (postprocess_antialiasing s') = new_swap_post_effect /\
  (GetSwapPostEffectForCvarValue (postprocess_antialiasing s) = new_swap_post_effect ->
   postprocess_antialiasing s' = postprocess_antialiasing s) /\
  OnDraw_swap_post_effect new_swap_post_effect s' = s'.
Proof.
  destruct s as [d c]. unfold OnDraw_swap_post_effect.
  cbn [desired_swap_post_effect postprocess_antialiasing].
  destruct (GetSwapPostEffectForCvarValue c) eqn:Ec, new_swap_post_effect, d;
    cbn; rewrite ?Ec; cbn; repeat split; rewrite ?Ec; cbn; congruence.
Qed.

(** X10. Likewise for scaling and sharpening: after the dialog the
    configuration variable stands for the effect of the new presenter
    configuration, and it keeps its text when it already did. *)
Theorem OnDraw_scaling_and_sharpening_in_sync
    (new_effect : Effect) (postprocess_scaling_and_sharpening : string) :
  GetGuestOutputPaintEffectForCvarValue
    (OnDraw_scaling_and_sharpening new_effect postprocess_scaling_and_sharpening) =
    new_effect /\
  (GetGuestOutputPaintEffectForCvarValue postprocess_scaling_and_sharpening = new_effect ->
   OnDraw_scaling_and_sharpening new_effect postprocess_scaling_and_sharpening =
     postprocess_scaling_and_sharpening).
Proof.
  unfold OnDraw_scaling_and_sharpening.
  destruct (GetGuestOutputPaintEffectForCvarValue postprocess_scaling_and_sharpening)
    eqn:Ec, new_effect; cbn; rewrite ?Ec; split; congruence.
Qed.

(** X11. A key press either does nothing and leaves the event as it was,
    or makes exactly one call and marks the event handled; before the
    emulator is initialised it always does nothing. *)
Theorem OnKeyDown_one_call_or_nothing
    (DEBUG emulator_initialized_ window_is_fullscreen : bool) (e : KeyEvent) :
  let r := OnKeyDown DEBUG emulator_initialized_ window_is_fullscreen e in
  ((fst r = [] /\ snd r = e) \/
   (exists c : Call, fst r = [c] /\ snd r = set_handled true e)) /\
  (emulator_initialized_ = false -> fst r = [] /\ snd r = e).
Proof.
  destruct e as [k ctrl h].
  destruct emulator_initialized_, DEBUG, window_is_fullscreen, ctrl, k;
    cbn; split; eauto; discriminate.
Qed.

(** X12. Shortcuts and fullscreen, with [SetFullscreen] and
    [ToggleFullscreen] followed into their bodies.  Escape and F11 always
    leave a window.  Escape never enters fullscreen: the window stays
    fullscreen only if it was and the emulator is not initialised, and a
    window that is not fullscreen is left exactly as it is.  F11, once the
    emulator is initialised, flips the fullscreen state.  Whenever the
    window a key press leaves differs in its fullscreen state from the one
    it found, the emulator is initialised and the key is F11 to enter,
    F11 or Escape to leave. *)
Theorem OnKeyDown_fullscreen_through_callees
    (DEBUG emulator_initialized_ : bool) (e : KeyEvent) (window_ : Window) :
  (virtual_key e = kEscape \/ virtual_key e = kF11 ->
   exists window' : Window,
     OnKeyDown_window DEBUG emulator_initialized_ e window_ = Some window') /\
  (forall window' : Window,
     OnKeyDown_window DEBUG emulator_initialized_ e window_ = Some window' ->
     (virtual_key e = kEscape ->
      IsFullscreen window' = IsFullscreen window_ && negb emulator_initialized_ /\
      (IsFullscreen window_ = false -> window' = window_)) /\
     (virtual_key e = kF11 -> emulator_initialized_ = true ->
      window' = ToggleFullscreen window_ /\
      IsFullscreen window' = negb (IsFullscreen window_)) /\
     (IsFullscreen window_ = false -> IsFullscreen window' = true ->
      emulator_initialized_ = true /\ virtual_key e = kF11) /\
     (IsFullscreen window_ = true -> IsFullscreen window' = false ->
      emulator_initialized_ = true /\
      (virtual_key e = kF11 \/ virtual_key e = kEscape))).
Proof.
  destruct e as [k ctrl h], window_ as [fs cv].
  unfold OnKeyDown_window. cbn [IsFullscreen virtual_key].
  split.
  - intros [-> | ->]; destruct emulator_initialized_, fs; cbn; eauto.
  - intros window' H.
    destruct emulator_initialized_, DEBUG, fs, ctrl, k; cbn in H;
      try discriminate H; injection H as <-; cbn;
      repeat split; intros; try discriminate; try congruence; auto.
Qed.

(** X13. In a window whose cursor is hidden automatically exactly in
    fullscreen, [SetFullscreen] leaves the window in the state asked for
    with the cursor still in step, and toggling twice gives the window
    back as it was. *)
Theorem SetFullscreen_keeps_cursor_in_step (fullscreen : bool) (window_ : Window) :
  cursor_follows_fullscreen window_ ->
  IsFullscreen (SetFullscreen fullscreen window_) = fullscreen /\
  cursor_follows_fullscreen (SetFullscreen fullscreen window_) /\
  IsFullscreen (ToggleFullscreen window_) = negb (IsFullscreen window_) /\
  ToggleFullscreen (ToggleFullscreen window_) = window_.
Proof.
  destruct window_ as [fs cv].
  unfold cursor_follows_fullscreen, ToggleFullscreen, SetFullscreen.
  cbn [IsFullscreen cursor_visibility]. intros ->.
  destruct fs, fullscreen; cbn; repeat split.
Qed.

Lemma SetFullscreen_keeps_cursor_in_step_witness :
  ToggleFullscreen (ToggleFullscreen (mkWindow false kVisible)) =
    mkWindow false kVisible.
Proof.
  apply (SetFullscreen_keeps_cursor_in_step true (mkWindow false kVisible)).
  reflexivity.
Defined.

(** X14. Dropping a file before the emulator is initialised does nothing
    at all.  Afterwards the file is launched; when the launch returns a
    32-bit code, a code with severity 0 adds nothing to what the launch
    did, and any other code adds one error line, which reads
    [Failed to launch target: ] followed by the code in eight hexadecimal
    digits.  The memory is the one the launch left. *)
Theorem FileDrop_logs_failed_launch
    (LaunchPath : string -> M X_RESULT) (filename : string)
    (w w' : World) (result : X_RESULT) :
  LaunchPath filename w = (Done result, w') ->
  is_uint32 result ->
  FileDrop false LaunchPath filename w = (Done tt, w) /\
  exists w'' : World,
    FileDrop true LaunchPath filename w = (Done tt, w'') /\
    memory w'' = memory w' /\
    (severity result = 0 -> w'' = w') /\
    (severity result <> 0 ->
     exists e : LogEntry,
       events w'' = (events w' ++ [EvLog e])%list /\
       level e = Error /\
       render e = Some ("Failed to launch target: " ++ hex8 result)%string).
Proof.
  intros Hlaunch Hres. split; [reflexivity |].
  unfold FileDrop. cbn [negb]. unfold bind. rewrite Hlaunch.
  rewrite (XFAILED_severity result Hres).
  destruct (Z.eqb_spec (severity result) 0) as [Hz | Hnz]; cbn [negb].
  - exists w'. repeat split. intros Hne. contradiction.
  - eexists. split; [reflexivity |]. cbn [memory events].
    split; [reflexivity |]. split; [intros Hz; contradiction |].
    intros _. eexists. repeat split.
Qed.

Lemma FileDrop_logs_failed_launch_witness :
  exists w'' : World,
    FileDrop true (fun _ => ret 0xC000000F) "game.iso" empty_world = (Done tt, w'') /\
    exists e : LogEntry,
      events w'' = [EvLog e] /\
      level e = Error /\
      render e = Some "Failed to launch target: C000000F".
Proof.
  assert (Hres : is_uint32 0xC000000F) by (unfold is_uint32; lia).
  destruct (FileDrop_logs_failed_launch (fun _ => ret 0xC000000F) "game.iso"
              empty_world empty_world 0xC000000F eq_refl Hres)
    as [_ [w'' [Hrun [_ [_ Hlog]]]]].
  exists w''. split; [exact Hrun |].
  apply Hlog. discriminate.
Defined.

(** X15. The compatibility page: for 32-bit title ids the address opened
    always starts with the base address; it is the base address itself
    exactly for title id 0, so the search for [00000000] is never opened;
    and two titles lead to the same address only when they are the same
    title. *)
Theorem ShowCompatibility_searches_by_title (title_id other_title_id : Z) :
  is_uint32 title_id -> is_uint32 other_title_id ->
  prefix base_url (ShowCompatibility title_id) = true /\
  (ShowCompatibility title_id = base_url <-> title_id = 0) /\
  ShowCompatibility title_id <>
    (base_url ++ "?q=is%3Aissue+is%3Aopen+" ++ "00000000")%string /\
  (ShowCompatibility title_id = ShowCompatibility other_title_id ->
   title_id = other_title_id).
Proof.
  intros Ht Ho.
  assert (Hq : forall x : string,
             ("?q=is%3Aissue+is%3Aopen+" ++ x)%string <> ""%string)
    by (intros x; cbn; discriminate).
  assert (Hzero : is_uint32 0) by (unfold is_uint32; lia).
  unfold ShowCompatibility.
  destruct (Z.eqb_spec title_id 0) as [-> | Hnz].
  - split; [rewrite <- (append_empty_r base_url) at 2; apply prefix_append |].
    split; [tauto |].
    split.
    + intros H. symmetry in H. revert H. apply append_neq_self, Hq.
    + destruct (Z.eqb_spec other_title_id 0) as [-> | Hnz']; [reflexivity |].
      intros H. symmetry in H. exfalso. revert H. apply append_neq_self, Hq.
  - split; [apply prefix_append |].
    split; [split; [intros H; exfalso; revert H; apply append_neq_self, Hq
                   | intros H; contradiction] |].
    split.
    + intros H. apply append_inj_l, append_inj_l in H.
      apply Hnz. apply (hex8_inj title_id 0 Ht Hzero). exact H.
    + destruct (Z.eqb_spec other_title_id 0) as [-> | Hnz'].
      * intros H. exfalso. revert H. apply append_neq_self, Hq.
      * intros H. apply append_inj_l, append_inj_l in H.
        exact (hex8_inj title_id other_title_id Ht Ho H).
Qed.

Lemma ShowCompatibility_searches_by_title_witness :
  prefix base_url (ShowCompatibility 0x4D5307E6) = true /\
  ShowCompatibility 0x4D5307E6 =
    "https://github.com/xenia-project/game-compatibility/issues?q=is%3Aissue+is%3Aopen+4D5307E6"%string.
Proof.
  assert (H1 : is_uint32 0x4D5307E6) by (unfold is_uint32; lia).
  assert (H2 : is_uint32 0) by (unfold is_uint32; lia).
  split; [| reflexivity].
  exact (proj1 (ShowCompatibility_searches_by_title 0x4D5307E6 0 H1 H2)).
Defined.

(** X16. Opening a file through the picker: when the picker is cancelled,
    or nothing is selected, or the first selected path is empty, nothing
    is launched and nothing changes; otherwise the first selected file,
    and only it, is launched by its absolute path, exactly as if that path
    had been dropped on the initialised window. *)
Theorem FileOpen_launches_first_selected
    (picker_shown : bool) (selected_files : list string)
    (absolute : string -> string) (LaunchPath : string -> M X_RESULT) (w : World) :
  (picker_shown = false \/ selected_files = [] \/
   hd_error selected_files = Some EmptyString ->
   FileOpen picker_shown selected_files absolute LaunchPath w = (Done tt, w)) /\
  (forall (first : string) (others : list string),
     picker_shown = true -> selected_files = first :: others ->
     first <> EmptyString ->
     FileOpen picker_shown selected_files absolute LaunchPath w =
       FileDrop true LaunchPath (absolute first) w).
Proof.
  split.
  - intros [-> | [-> | Hhd]]; [reflexivity | now destruct picker_shown |].
    destruct selected_files as [| f fs]; [discriminate Hhd |].
    injection Hhd as ->. now destruct picker_shown.
  - intros f fs -> -> Hf. unfold FileOpen, FileDrop. cbn [negb].
    destruct (String.eqb_spec f EmptyString) as [He | _]; [contradiction |].
    reflexivity.
Qed.

Lemma length_hex_digits (n : nat) (v : Z) : String.length (hex_digits n v) = n.
Proof. induction n as [| k IH]; cbn; [reflexivity | now rewrite IH]. Qed.

Lemma append_inj_same_length (a b x y : string) :
  String.length a = String.length b ->
  (a ++ x)%string = (b ++ y)%string -> a = b /\ x = y.
Proof.
  revert b. induction a as [| c a IH]; intros [| d b] Hlen H;
    try discriminate Hlen.
  - now split.
  - cbn in Hlen, H. injection Hlen as Hlen. injection H as -> H.
    destruct (IH b Hlen H) as [-> ->]. now split.
Qed.

Lemma render_logged_entry_known (this : App) (message : Z) (name : string)
    (buffer_ptr buffer_length : Z) :
  In (message, name) xime_table ->
  render (logged_entry this message buffer_ptr buffer_length) =
    Some (name ++ "(" ++ hex8 buffer_ptr ++ ", " ++ hex8 buffer_length
          ++ "), unimplemented")%string.
Proof.
  intros Hin. cbn in Hin.
  repeat (destruct Hin as [Heq | Hin]; [injection Heq as <- <-; reflexivity |]).
  contradiction.
Qed.

Lemma debug_line_inj (name : string) (p1 l1 p2 l2 : Z) :
  (name ++ "(" ++ hex8 p1 ++ ", " ++ hex8 l1 ++ "), unimplemented")%string =
  (name ++ "(" ++ hex8 p2 ++ ", " ++ hex8 l2 ++ "), unimplemented")%string ->
  hex8 p1 = hex8 p2 /\ hex8 l1 = hex8 l2.
Proof.
  intros H.
  apply append_inj_l, append_inj_l in H.
  apply append_inj_same_length in H;
    [| unfold hex8; now rewrite !length_hex_digits].
  destruct H as [Hp H]. apply append_inj_l in H.
  apply append_inj_same_length in H;
    [| unfold hex8; now rewrite !length_hex_digits].
  now destruct H as [Hl _].
Qed.

(** X17. The debug line of a stub tells its arguments: for one message of
    the table and 32-bit arguments, two calls whose debug lines read the
    same were made with the same buffer address and the same length. *)
Theorem DispatchMessageSync_known_line_tells_arguments
    (message ptr1 len1 ptr2 len2 : Z) (w1 w2 : World) (e1 e2 : LogEntry) :
  In message xime_messages ->
  is_uint32 ptr1 -> is_uint32 len1 -> is_uint32 ptr2 -> is_uint32 len2 ->
  events (snd (DispatchMessageSync XimeApp message ptr1 len1 w1)) =
    (events w1 ++ [EvTranslate ptr1; EvLog e1])%list ->
  events (snd (DispatchMessageSync XimeApp message ptr2 len2 w2)) =
    (events w2 ++ [EvTranslate ptr2; EvLog e2])%list ->
  render e1 = render e2 ->
  ptr1 = ptr2 /\ len1 = len2.
Proof.
  intros Hin Hp1 Hl1 Hp2 Hl2 H1 H2 Hr.
  rewrite DispatchMessageSync_run in H1, H2. cbn [snd events] in H1, H2.
  apply app_inv_head in H1, H2.
  injection H1 as <-. injection H2 as <-.
  apply in_map_iff in Hin. destruct Hin as [[m name] [Hm Hin]].
  cbn [fst] in Hm. subst m.
  rewrite !(render_logged_entry_known XimeApp message name) in Hr by exact Hin.
  injection Hr as Hr. apply debug_line_inj in Hr. destruct Hr as [Hp Hl].
  split; [exact (hex8_inj ptr1 ptr2 Hp1 Hp2 Hp) | exact (hex8_inj len1 len2 Hl1 Hl2 Hl)].
Qed.

Lemma DispatchMessageSync_known_line_tells_arguments_witness :
  render (logged_entry XimeApp 0x00400002 0x1000 8) =
    Some "XimeUninit(00001000, 00000008), unimplemented"%string /\
  (0x1000 = 0x1000 /\ 8 = 8).
Proof.
  split; [reflexivity |].
  assert (Hu : forall v, 0 <= v < 2 ^ 32 -> is_uint32 v) by (intros v Hv; exact Hv).
  apply (DispatchMessageSync_known_line_tells_arguments 0x00400002
           0x1000 8 0x1000 8 empty_world empty_world
           (logged_entry XimeApp 0x00400002 0x1000 8)
           (logged_entry XimeApp 0x00400002 0x1000 8)).
  - simpl. tauto.
  - apply Hu; lia.
  - apply Hu; lia.
  - apply Hu; lia.
  - apply Hu; lia.
  - reflexivity.
  - reflexivity.
  - reflexivity.
Defined.
